(** * samples/sample.py: a shallow embedding and its verified properties

    The module defines six top-level names ([login], [validate],
    [fake_auth], [is_leap], [greet], [old_auth]) and runs one counting loop
    at import time.  Python calls are modelled in a state-and-exception
    monad over the only state the module can touch: the text written to
    standard output and the module-level loop variable [i].  Standard
    output is an open text stream; its encoding is a parameter of
    [print]. *)

From Stdlib Require Import ZArith NArith List String Ascii Bool Lia.
From Stdlib Require Import DecimalString.
Import ListNotations.

Local Open Scope string_scope.
Local Open Scope list_scope.
Local Open Scope Z_scope.

(** ** Python values and exceptions *)

(** The values the module's functions receive or return.  Python integers
    are unbounded, hence [Z].  A [PyStr] holds a string of 8-bit characters,
    read as the code points U+0000 .. U+00FF. *)
Inductive pyval : Type :=
  | PyNone
  | PyBool (b : bool)
  | PyInt (z : Z)
  | PyStr (s : string).

(** [ValueError] is the only exception the source raises by hand, and the
    one [str] raises on an integer of too many digits;
    [ZeroDivisionError] is what the [%] operator raises on a zero divisor;
    [UnicodeEncodeError], a subclass of [ValueError], is what a text stream
    raises on a text its encoding cannot encode. *)
Inductive pyexn : Type :=
  | ValueError (msg : string)
  | ZeroDivisionError
  | UnicodeEncodeError.

(** Truth value testing, as performed by [not x] and [if x]. *)
Definition truthy (v : pyval) : bool :=
  match v with
  | PyNone => false
  | PyBool b => b
  | PyInt z => negb (z =? 0)
  | PyStr s => negb (String.length s =? 0)%nat
  end.

(** The text of [str(v)] when the conversion succeeds. *)
Definition str_text (v : pyval) : string :=
  match v with
  | PyNone => "None"
  | PyBool true => "True"
  | PyBool false => "False"
  | PyInt z => NilZero.string_of_int (Z.to_int z)
  | PyStr s => s
  end.

(** CPython's default limit on the decimal digits of an integer that is
    converted to a string ([sys.int_info.default_max_str_digits]). *)
Definition int_max_str_digits : Z := 4300.

(** Whether [v] is an integer of more than [int_max_str_digits] decimal
    digits, the sign not counted. *)
Definition exceeds_str_digits (v : pyval) : bool :=
  match v with
  | PyInt z => 10 ^ int_max_str_digits <=? Z.abs z
  | _ => false
  end.

(** The message of the [ValueError] that [str] raises beyond the limit. *)
Definition str_digits_message : string :=
  "Exceeds the limit (4300 digits) for integer string conversion; use sys.set_int_max_str_digits() to increase the limit".

(** ** The state-and-exception monad *)

Record world : Type := mkWorld {
  stdout : list string;      (* lines printed so far, oldest first *)
  global_i : option Z        (* module global [i], unbound until the loop runs *)
}.

(** The world in which the module starts to load. *)
Definition initial_world : world := mkWorld [] None.

Inductive outcome (A : Type) : Type :=
  | Ok (a : A)
  | Raise (e : pyexn).
Arguments Ok {A} a.
Arguments Raise {A} e.

Definition M (A : Type) : Type := world -> outcome A * world.

Definition ret {A} (a : A) : M A := fun w => (Ok a, w).

Definition raise {A} (e : pyexn) : M A := fun w => (Raise e, w).

Definition bind {A B} (m : M A) (k : A -> M B) : M B :=
  fun w =>
    match m w with
    | (Ok a, w') => k a w'
    | (Raise e, w') => (Raise e, w')
    end.

Notation "x <- m ;; k" := (bind m (fun x => k))
  (at level 61, m at next level, right associativity).
Notation "m ;;; k" := (bind m (fun _ => k))
  (at level 61, right associativity).

(** The result of a call and the world it leaves behind. *)
Definition result {A} (m : M A) (w : world) : outcome A := fst (m w).
Definition after {A} (m : M A) (w : world) : world := snd (m w).

Definition raises {A} (o : outcome A) : bool :=
  match o with Ok _ => false | Raise _ => true end.

(** Whether a call raised a [ValueError], that is, what [except ValueError]
    would catch: the class itself or its subclass [UnicodeEncodeError]. *)
Definition is_ValueError {A} (o : outcome A) : bool :=
  match o with
  | Raise (ValueError _) => true
  | Raise UnicodeEncodeError => true
  | _ => false
  end.

(** ** Built-in operations used by the module *)

(** [a % b] on integers: floored remainder, [ZeroDivisionError] when [b]
    is zero.  [Z.modulo] has the sign of the divisor, like Python's. *)
Definition py_mod (a b : Z) : M Z :=
  if b =? 0 then raise ZeroDivisionError else ret (a mod b).

(** [str(v)], as used by an f-string replacement field: a [ValueError]
    for an integer beyond the digit limit, the text of [v] otherwise. *)
Definition py_str (v : pyval) : M string :=
  if exceeds_str_digits v
  then raise (ValueError str_digits_message)
  else ret (str_text v).

(** The line feed that [print] puts after its argument. *)
Definition newline : string := String "010"%char EmptyString.

(** The encoding of standard output, given by the texts it can encode. *)
Definition encoding : Type := string -> bool.

(** UTF-8 encodes every code point a [PyStr] can hold. *)
Definition utf_8 : encoding := fun _ => true.


(** [print(s)]: the stream encodes [s] before it writes anything, and
    raises [UnicodeEncodeError] when it cannot; otherwise one line is
    appended to standard output. *)
Definition print (enc : encoding) (s : string) : M pyval :=
  fun w =>
    if enc s
    then (Ok PyNone,
          mkWorld (stdout w ++ [(s ++ newline)%string]) (global_i w))
    else (Raise UnicodeEncodeError, w).

(** ** The functions of sample.py *)

(** [pass] *)
Definition pass : M pyval := ret PyNone.

(** [def login(): pass]; the body ends and the call returns [None]. *)
Definition login : M pyval :=
  pass ;;;
  ret PyNone.

(** [def validate(username): if not username: raise ValueError(...)];
    falling off the end of the body returns [None]. *)
Definition validate (username : pyval) : M pyval :=
  if negb (truthy username)
  then raise (ValueError "Username required")
  else ret PyNone.

(** [def fake_auth(): return True] *)
Definition fake_auth : M pyval := ret (PyBool true).

(** [def is_leap(year):
       return year % 4 == 0 and (year % 100 != 0 or year % 400 == 0)]
    with the left-to-right, short-circuit evaluation of [and] and [or]. *)
Definition is_leap (year : Z) : M pyval :=
  r4 <- py_mod year 4 ;;
  if r4 =? 0 then
    r100 <- py_mod year 100 ;;
    if negb (r100 =? 0) then ret (PyBool true)
    else
      r400 <- py_mod year 400 ;;
      ret (PyBool (r400 =? 0))
  else ret (PyBool false).

(** [def greet(name): print(f"Hello, {name}")]: the f-string is built
    first, then printed. *)
Definition greet (enc : encoding) (name : pyval) : M pyval :=
  s <- py_str name ;;
  print enc ("Hello, " ++ s) ;;;
  ret PyNone.

(** [def old_auth(): return False] *)
Definition old_auth : M pyval := ret (PyBool false).

(** The module-level statement [for i in range(1000000): pass].  Each turn
    binds the global [i] and runs the body; an exception in the body ends
    the loop. *)
Definition assign_i (v : Z) : M pyval :=
  fun w => (Ok PyNone, mkWorld (stdout w) (Some v)).

Definition for_step (body : M pyval) (st : Z * (outcome pyval * world))
  : Z * (outcome pyval * world) :=
  match st with
  | (i, (Ok _, w)) => (i + 1, (assign_i i ;;; body) w)
  | (_, (Raise _, _)) => st
  end.

Definition for_i_in_range (n : N) (body : M pyval) : M pyval :=
  fun w => snd (N.iter n (for_step body) (0, (Ok PyNone, w))).

Definition module_loop : M pyval := for_i_in_range 1000000 pass.

(** The boolean that [is_leap] computes, read off its return expression. *)
Definition leap_bool (year : Z) : bool :=
  (year mod 4 =? 0) && (negb (year mod 100 =? 0) || (year mod 400 =? 0)).

(** ** Vocabulary of the specification *)

(** The Gregorian rule, in the specification's words. *)
Definition gregorian_rule (year : Z) : Prop :=
  (4 | year) /\ (~ (100 | year) \/ (400 | year)).

(** The argument of [validate] as the specification sees it: a string, or
    nothing at all ([None]). *)
Definition py_of_username (u : option string) : pyval :=
  match u with
  | None => PyNone
  | Some s => PyStr s
  end.

(** ASCII characters for which [str.isspace] holds: tab, line feed,
    vertical tab, form feed, carriage return, the four separators
    0x1c..0x1f, and the space. *)
Definition is_space (c : ascii) : bool :=
  let n := nat_of_ascii c in
  ((9 <=? n) && (n <=? 13) || (28 <=? n) && (n <=? 32))%nat.

Fixpoint all_space (s : string) : bool :=
  match s with
  | EmptyString => true
  | String c s' => is_space c && all_space s'
  end.

(** A blank username: a space, a tab and a line feed. *)
Definition blank_name : string :=
  String " "%char (String "009"%char newline).

(** ** Callers used to state how the functions compose *)

(** Whether a call returned the Python value [True]. *)
Definition returns_true (o : outcome pyval) : bool :=
  match o with
  | Ok (PyBool true) => true
  | _ => false
  end.

(** How many of the [n] years [start], [start + 1], ... make [is_leap]
    return [True]. *)
Fixpoint leap_years_from (start : Z) (n : nat) (w : world) : nat :=
  match n with
  | O => O
  | S n' =>
      ((if returns_true (result (is_leap start) w) then 1 else 0)
       + leap_years_from (start + 1) n' w)%nat
  end.

(** [greet(n1); greet(n2); ...]: one call per name, in order; a call that
    raises ends the sequence. *)
Fixpoint greet_each (enc : encoding) (names : list pyval) : M pyval :=
  match names with
  | [] => ret PyNone
  | name :: rest => greet enc name ;;; greet_each enc rest
  end.

(** The text [greet] hands to [print] for [name], and the line that
    [print] writes for it. *)
Definition hello (name : pyval) : string :=
  ("Hello, " ++ str_text name)%string.

Definition greeting (name : pyval) : string :=
  (hello name ++ newline)%string.

(** A name [greet] can print on a stream of encoding [enc]: within the
    digit limit, and with a text the stream can encode. *)
Definition greetable (enc : encoding) (name : pyval) : bool :=
  negb (exceeds_str_digits name) && enc (hello name).


(** The smallest integer beyond the digit limit. *)
Definition first_too_long : Z := 10 ^ int_max_str_digits.

(** The years [0 .. n-1] as a list. *)
Definition years_below (n : nat) : list Z := map Z.of_nat (seq 0 n).

(** The same count over [leap_bool], the boolean [is_leap] computes. *)
Fixpoint leap_count (start : Z) (n : nat) : nat :=
  match n with
  | O => O
  | S n' => ((if leap_bool start then 1 else 0) + leap_count (start + 1) n')%nat
  end.

(** ** Evaluation lemmas *)

Lemma py_mod_nonzero (a b : Z) (w : world) :
  b <> 0 -> py_mod a b w = (Ok (a mod b), w).
Proof.
  intros Hb. unfold py_mod.
  destruct (Z.eqb_spec b 0) as [E | _]; [contradiction | reflexivity].
Qed.

Lemma bind_ok {A B} (m : M A) (k : A -> M B) (w w' : world) (a : A) :
  m w = (Ok a, w') -> bind m k w = k a w'.
Proof. intros E. unfold bind. rewrite E. reflexivity. Qed.

Lemma is_leap_eval (year : Z) (w : world) :
  is_leap year w = (Ok (PyBool (leap_bool year)), w).
Proof.
  unfold is_leap, leap_bool.
  rewrite (bind_ok _ _ w w (year mod 4)) by (apply py_mod_nonzero; lia).
  destruct (year mod 4 =? 0); [ | reflexivity ].
  rewrite (bind_ok _ _ w w (year mod 100)) by (apply py_mod_nonzero; lia).
  destruct (year mod 100 =? 0); simpl; [ | reflexivity ].
  rewrite (bind_ok _ _ w w (year mod 400)) by (apply py_mod_nonzero; lia).
  reflexivity.
Qed.

Lemma leap_bool_rule (year : Z) :
  leap_bool year = true <-> gregorian_rule year.
Proof.
  unfold leap_bool, gregorian_rule.
  rewrite andb_true_iff, orb_true_iff, negb_true_iff.
  rewrite <- (Z.mod_divide year 4), <- (Z.mod_divide year 100),
          <- (Z.mod_divide year 400) by lia.
  rewrite !Z.eqb_eq, Z.eqb_neq. reflexivity.
Qed.

Lemma leap_bool_period (year : Z) :
  leap_bool (year + 400) = leap_bool year.
Proof.
  unfold leap_bool.
  replace (year + 400) with (year + 100 * 4) at 1 by lia.
  replace (year + 400) with (year + 4 * 100) at 1 by lia.
  replace (year + 400) with (year + 1 * 400) by lia.
  rewrite !Z.mod_add by lia. reflexivity.
Qed.

Lemma truthy_str (s : string) :
  truthy (PyStr s) = false <-> s = "".
Proof.
  destruct s as [ | c s']; simpl; split; intros H;
    solve [ reflexivity | discriminate ].
Qed.

Lemma validate_nonempty (s : string) (w : world) :
  s <> "" -> validate (PyStr s) w = (Ok PyNone, w).
Proof.
  intros Hs. unfold validate.
  destruct (truthy (PyStr s)) eqn:E; [ reflexivity | ].
  apply truthy_str in E. contradiction.
Qed.

Lemma for_pass_iter (n : N) (w : world) :
  N.iter n (for_step pass) (0, (Ok PyNone, w)) =
  (Z.of_N n,
   (Ok PyNone,
    if (n =? 0)%N then w else mkWorld (stdout w) (Some (Z.of_N n - 1)))).
Proof.
  induction n as [ | n IH] using N.peano_ind; [ reflexivity | ].
  rewrite N.iter_succ, IH. simpl.
  destruct (N.eqb_spec (N.succ n) 0) as [E | _]; [ lia | ].
  unfold bind, assign_i, pass, ret.
  destruct (N.eqb_spec n 0) as [-> | _]; simpl;
    repeat f_equal; lia.
Qed.

Lemma module_loop_eval (w : world) :
  module_loop w = (Ok PyNone, mkWorld (stdout w) (Some 999999)).
Proof.
  unfold module_loop, for_i_in_range.
  rewrite for_pass_iter. reflexivity.
Qed.

Lemma greet_cases (enc : encoding) (name : pyval) (w : world) :
  greet enc name w
  = if exceeds_str_digits name
    then (Raise (ValueError str_digits_message), w)
    else if enc (hello name)
         then (Ok PyNone,
               mkWorld (stdout w ++ [greeting name]) (global_i w))
         else (Raise UnicodeEncodeError, w).
Proof.
  unfold greet, bind, py_str, raise, ret, print, greeting, hello.
  destruct (exceeds_str_digits name); [ reflexivity | ].
  destruct (enc _); reflexivity.
Qed.

Lemma greet_not_username_required (enc : encoding) (name : pyval) (w : world) :
  result (greet enc name) w <> Raise (ValueError "Username required").
Proof.
  unfold result. rewrite greet_cases.
  destruct (exceeds_str_digits name); [ simpl; discriminate | ].
  destruct (enc (hello name)); simpl; discriminate.
Qed.

(** ** The leap-year predicate *)

(** C1: for every integer year, [is_leap year] returns [True] when the year
    is divisible by 4 and (not divisible by 100 or divisible by 400), and
    returns [False] otherwise. *)
Theorem is_leap_gregorian :
  forall (year : Z) (w : world),
    (gregorian_rule year -> result (is_leap year) w = Ok (PyBool true)) /\
    (~ gregorian_rule year -> result (is_leap year) w = Ok (PyBool false)).
Proof.
  intros year w. unfold result. rewrite is_leap_eval. simpl.
  pose proof (leap_bool_rule year) as R.
  destruct (leap_bool year); split; intros H.
  - reflexivity.
  - exfalso. apply H, R. reflexivity.
  - apply R in H. discriminate.
  - reflexivity.
Qed.

Lemma is_leap_gregorian_witness :
  gregorian_rule 2024 /\
  result (is_leap 2024) initial_world = Ok (PyBool true) /\
  ~ gregorian_rule 1900 /\
  result (is_leap 1900) initial_world = Ok (PyBool false).
Proof.
  assert (G : gregorian_rule 2024)
    by (apply leap_bool_rule; reflexivity).
  assert (N : ~ gregorian_rule 1900)
    by (intros H; apply leap_bool_rule in H; discriminate).
  exact (conj G
          (conj (proj1 (is_leap_gregorian 2024 initial_world) G)
            (conj N (proj2 (is_leap_gregorian 1900 initial_world) N)))).
Defined.

(** C3: for every integer y, [is_leap y] and [is_leap (y + 400)] return the
    same value: the predicate has period 400. *)
Theorem is_leap_period_400 :
  forall (y : Z) (w : world),
    result (is_leap y) w = result (is_leap (y + 400)) w.
Proof.
  intros y w. unfold result.
  rewrite !is_leap_eval, leap_bool_period. reflexivity.
Qed.

(** C4: [is_leap 2000] is [True], [is_leap 1900] is [False],
    [is_leap 2024] is [True] and [is_leap 2023] is [False]. *)
Theorem is_leap_examples :
  forall w : world,
    result (is_leap 2000) w = Ok (PyBool true) /\
    result (is_leap 1900) w = Ok (PyBool false) /\
    result (is_leap 2024) w = Ok (PyBool true) /\
    result (is_leap 2023) w = Ok (PyBool false).
Proof.
  intros w. repeat split; reflexivity.
Qed.

(** C6: [is_leap] is total over the integers, whatever their sign and
    size: the call never raises and returns a boolean. *)
Theorem is_leap_total :
  forall (year : Z) (w : world),
    raises (result (is_leap year) w) = false /\
    exists b : bool, result (is_leap year) w = Ok (PyBool b).
Proof.
  intros year w. unfold result. rewrite is_leap_eval. simpl.
  split; [ reflexivity | ]. exists (leap_bool year). reflexivity.
Qed.

(** C8: [is_leap] is pure and deterministic: the value returned for y is
    the same in every world, and the call leaves the world as it found
    it. *)
Theorem is_leap_pure :
  forall (y : Z) (w1 w2 : world),
    result (is_leap y) w1 = result (is_leap y) w2 /\
    after (is_leap y) w1 = w1.
Proof.
  intros y w1 w2. unfold result, after.
  rewrite !is_leap_eval. split; reflexivity.
Qed.

(** ** The validator *)

(** C2: [validate] raises [ValueError("Username required")] exactly when
    the username is the empty string or [None]; on every non-empty string
    the call completes; and nothing else in the module raises that error:
    [login], [fake_auth], [is_leap], [old_auth] and the counting loop raise
    no [ValueError] at all, and [greet], whose own failures are the digit
    limit of [str] and the encoding of standard output, never raises the
    "Username required" one. *)
Theorem validate_raises_iff_empty :
  (forall (u : option string) (w : world),
     validate (py_of_username u) w = (Raise (ValueError "Username required"), w)
     <-> (u = None \/ u = Some "")) /\
  (forall (u : option string) (w : world),
     raises (result (validate (py_of_username u)) w) = true
     <-> (u = None \/ u = Some "")) /\
  (forall (s : string) (w : world),
     s <> "" -> validate (PyStr s) w = (Ok PyNone, w)) /\
  (forall (year : Z) (enc : encoding) (name : pyval) (w : world),
     is_ValueError (result login w) = false /\
     is_ValueError (result fake_auth w) = false /\
     is_ValueError (result (is_leap year) w) = false /\
     result (greet enc name) w <> Raise (ValueError "Username required") /\
     is_ValueError (result module_loop w) = false /\
     is_ValueError (result old_auth w) = false).
Proof.
  split; [ | split; [ | split ] ].
  - intros [s | ] w; simpl.
    + destruct s as [ | c s'].
      * split; [ right; reflexivity | reflexivity ].
      * split; [ discriminate | intros [H | H]; discriminate ].
    + split; [ left; reflexivity | reflexivity ].
  - intros [s | ] w; simpl.
    + destruct s as [ | c s'].
      * split; [ right; reflexivity | reflexivity ].
      * split; [ discriminate | intros [H | H]; discriminate ].
    + split; [ left; reflexivity | reflexivity ].
  - intros s w Hs. apply validate_nonempty, Hs.
  - intros year enc name w.
    split; [ reflexivity | ]. split; [ reflexivity | ].
    split; [ unfold result; rewrite is_leap_eval; reflexivity | ].
    split; [ apply greet_not_username_required | ].
    split; [ unfold result; rewrite module_loop_eval; reflexivity | ].
    reflexivity.
Qed.

Lemma validate_raises_iff_empty_witness :
  validate (PyStr "") initial_world
  = (Raise (ValueError "Username required"), initial_world) /\
  validate PyNone initial_world
  = (Raise (ValueError "Username required"), initial_world) /\
  validate (PyStr "bob") initial_world = (Ok PyNone, initial_world).
Proof.
  destruct validate_raises_iff_empty as (Hraise & _ & Hok & _).
  split; [ | split ].
  - apply (Hraise (Some "")). right. reflexivity.
  - apply (Hraise None). left. reflexivity.
  - apply Hok. discriminate.
Defined.

(** C5: a username made only of whitespace is accepted: for every string
    of one or more whitespace characters [validate] completes without
    raising. *)
Theorem validate_accepts_whitespace :
  forall (s : string) (w : world),
    s <> "" -> all_space s = true ->
    validate (PyStr s) w = (Ok PyNone, w).
Proof.
  intros s w Hs _. apply validate_nonempty, Hs.
Qed.

Lemma validate_accepts_whitespace_witness :
  blank_name <> "" /\ all_space blank_name = true /\
  validate (PyStr blank_name) initial_world = (Ok PyNone, initial_world).
Proof.
  split; [ discriminate | split; [ reflexivity | ] ].
  apply (validate_accepts_whitespace blank_name initial_world);
    [ discriminate | reflexivity ].
Defined.

(** C7: on a non-empty username [validate] returns [None], leaves the
    world unchanged, and its result does not depend on the world. *)
Theorem validate_nonempty_no_effect :
  forall (s : string) (w w' : world),
    s <> "" ->
    result (validate (PyStr s)) w = Ok PyNone /\
    after (validate (PyStr s)) w = w /\
    result (validate (PyStr s)) w = result (validate (PyStr s)) w'.
Proof.
  intros s w w' Hs. unfold result, after.
  rewrite !validate_nonempty by exact Hs.
  repeat split; reflexivity.
Qed.

Lemma validate_nonempty_no_effect_witness :
  "alice" <> "" /\
  result (validate (PyStr "alice")) initial_world = Ok PyNone /\
  after (validate (PyStr "alice")) initial_world = initial_world /\
  result (validate (PyStr "alice")) initial_world
  = result (validate (PyStr "alice")) (mkWorld ["x"] (Some 3)).
Proof.
  split; [ discriminate | ].
  apply (validate_nonempty_no_effect "alice" initial_world
           (mkWorld ["x"] (Some 3))).
  discriminate.
Defined.

(** ** The placeholders *)

(** C9: [fake_auth] returns [True] and [old_auth] returns [False] on every
    call; neither raises nor changes the world. *)
Theorem auth_constants :
  forall w : world,
    fake_auth w = (Ok (PyBool true), w) /\
    old_auth w = (Ok (PyBool false), w).
Proof.
  intros w. split; reflexivity.
Qed.

(** C10: [login] succeeds silently: every call returns [None], raises
    nothing, and leaves the world unchanged. *)
Theorem login_silent :
  forall w : world,
    login w = (Ok PyNone, w) /\
    raises (result login w) = false /\
    forall e : pyexn, result login w <> Raise e.
Proof.
  intros w. repeat split; try reflexivity.
  intros e. discriminate.
Qed.

(** ** Further properties of the validator *)

(** X1: [validate] tests truthiness, not the type: over all values it raises
    exactly on [None], [False], the integer 0 and the empty string. *)
Theorem validate_rejects_exactly_falsy :
  forall (u : pyval) (w : world),
    raises (result (validate u) w) = true
    <-> (u = PyNone \/ u = PyBool false \/ u = PyInt 0 \/ u = PyStr "").
Proof.
  intros u w. unfold result, validate.
  destruct u as [ | b | z | s]; simpl.
  - split; [ intros _; left; reflexivity | reflexivity ].
  - destruct b; simpl; split; intros H;
      try discriminate; try reflexivity.
    + decompose [or] H; discriminate.
    + right; left; reflexivity.
  - destruct (Z.eqb_spec z 0) as [-> | Hz]; simpl; split; intros H;
      try discriminate; try reflexivity.
    + right; right; left; reflexivity.
    + decompose [or] H; try discriminate.
      match goal with E : PyInt _ = PyInt _ |- _ => injection E as E end.
      contradiction.
  - destruct s as [ | c s']; simpl; split; intros H;
      try discriminate; try reflexivity.
    + right; right; right; reflexivity.
    + decompose [or] H; discriminate.
Qed.

(** ** Further properties of the leap-year predicate *)

Lemma mod_zero_opp (y d : Z) :
  d <> 0 -> ((- y) mod d =? 0) = (y mod d =? 0).
Proof.
  intros Hd. apply eq_true_iff_eq.
  rewrite !Z.eqb_eq, !Z.mod_divide by exact Hd.
  apply Z.divide_opp_r.
Qed.

Lemma leap_bool_opp (y : Z) : leap_bool (- y) = leap_bool y.
Proof.
  unfold leap_bool. rewrite !mod_zero_opp by lia. reflexivity.
Qed.

Lemma leap_bool_mod400 (y : Z) : leap_bool y = leap_bool (y mod 400).
Proof.
  rewrite (Z.div_mod y 400) at 1 by lia.
  unfold leap_bool.
  replace (400 * (y / 400) + y mod 400)
    with (y mod 400 + (y / 400 * 100) * 4) at 1 by lia.
  replace (400 * (y / 400) + y mod 400)
    with (y mod 400 + (y / 400 * 4) * 100) at 1 by lia.
  replace (400 * (y / 400) + y mod 400)
    with (y mod 400 + (y / 400) * 400) by lia.
  rewrite !Z.mod_add by lia. reflexivity.
Qed.

Lemma in_years_below (n : nat) (r : Z) :
  0 <= r < Z.of_nat n -> In r (years_below n).
Proof.
  intros Hr. unfold years_below.
  replace r with (Z.of_nat (Z.to_nat r)) by lia.
  apply in_map, in_seq. lia.
Qed.

Lemma returns_true_is_leap (y : Z) (w : world) :
  returns_true (result (is_leap y) w) = leap_bool y.
Proof.
  unfold result. rewrite is_leap_eval. simpl.
  destruct (leap_bool y); reflexivity.
Qed.

(** X3: the predicate is symmetric about year 0: [is_leap (-y)] returns
    what [is_leap y] returns, so negative years follow the same rule. *)
Theorem is_leap_negation :
  forall (y : Z) (w : world),
    result (is_leap (- y)) w = result (is_leap y) w.
Proof.
  intros y w. unfold result.
  rewrite !is_leap_eval, leap_bool_opp. reflexivity.
Qed.

(** X4: leap years are at least four years apart: when [is_leap y] returns
    [True], it returns [False] for each of the next three years. *)
Theorem is_leap_next_three_false :
  forall (y : Z) (w : world),
    result (is_leap y) w = Ok (PyBool true) ->
    result (is_leap (y + 1)) w = Ok (PyBool false) /\
    result (is_leap (y + 2)) w = Ok (PyBool false) /\
    result (is_leap (y + 3)) w = Ok (PyBool false).
Proof.
  intros y w. unfold result. rewrite !is_leap_eval. simpl.
  intros H. injection H as H.
  unfold leap_bool in H. apply andb_true_iff in H.
  destruct H as [H4 _]. apply Z.eqb_eq in H4.
  assert (F : forall d, 0 < d < 4 -> leap_bool (y + d) = false).
  { intros d Hd. unfold leap_bool.
    replace ((y + d) mod 4 =? 0) with false; [ reflexivity | ].
    symmetry. apply Z.eqb_neq.
    rewrite Z.add_mod, H4 by lia. simpl.
    rewrite Z.mod_mod, Z.mod_small by lia. lia. }
  rewrite !F by lia. repeat split; reflexivity.
Qed.

Lemma is_leap_next_three_false_witness :
  result (is_leap 2024) initial_world = Ok (PyBool true) /\
  result (is_leap 2025) initial_world = Ok (PyBool false) /\
  result (is_leap 2026) initial_world = Ok (PyBool false) /\
  result (is_leap 2027) initial_world = Ok (PyBool false).
Proof.
  split; [ reflexivity | ].
  apply (is_leap_next_three_false 2024 initial_world). reflexivity.
Defined.

(** X5: a leap year is never more than eight years away: among any eight
    consecutive years [is_leap] returns [True] for at least one.  Eight is
    needed: it returns [False] for all of 1897 .. 1903. *)
Theorem is_leap_within_eight :
  forall (y : Z) (w : world),
    (exists d : Z, 0 <= d < 8 /\
       result (is_leap (y + d)) w = Ok (PyBool true)) /\
    (forall d : Z, 0 <= d < 7 ->
       result (is_leap (1897 + d)) w = Ok (PyBool false)).
Proof.
  intros y w. split.
  - assert (C : forallb (fun r => existsb (fun d => leap_bool (r + d))
                                     (years_below 8))
                        (years_below 400) = true)
      by (vm_compute; reflexivity).
    rewrite forallb_forall in C.
    specialize (C (y mod 400)
                  (in_years_below 400 _ (Z.mod_pos_bound y 400 eq_refl))).
    apply existsb_exists in C. destruct C as (d & Hin & Hd).
    exists d. split.
    + unfold years_below in Hin. apply in_map_iff in Hin.
      destruct Hin as (k & <- & Hk). apply in_seq in Hk. lia.
    + unfold result. rewrite is_leap_eval. simpl.
      rewrite leap_bool_mod400, <- Z.add_mod_idemp_l, <- leap_bool_mod400
        by lia.
      rewrite Hd. reflexivity.
  - intros d Hd. unfold result. rewrite is_leap_eval. simpl.
    assert (E : d = 0 \/ d = 1 \/ d = 2 \/ d = 3 \/ d = 4 \/ d = 5 \/ d = 6)
      by lia.
    decompose [or] E; subst d; reflexivity.
Qed.

Lemma leap_years_from_count (start : Z) (n : nat) (w : world) :
  leap_years_from start n w = leap_count start n.
Proof.
  revert start. induction n as [ | n IH]; intros start; simpl.
  - reflexivity.
  - rewrite returns_true_is_leap, IH. reflexivity.
Qed.

Lemma leap_count_snoc (start : Z) (n : nat) :
  leap_count start (S n)
  = (leap_count start n
     + (if leap_bool (start + Z.of_nat n) then 1 else 0))%nat.
Proof.
  revert start. induction n as [ | n IH]; intros start.
  - simpl. rewrite Z.add_0_r. lia.
  - change (leap_count start (S (S n)))
      with ((if leap_bool start then 1 else 0)
            + leap_count (start + 1) (S n))%nat.
    rewrite IH. simpl leap_count.
    replace (start + 1 + Z.of_nat n) with (start + Z.of_nat (S n)) by lia.
    lia.
Qed.

Lemma leap_count_shift (start : Z) :
  leap_count (start + 1) 400 = leap_count start 400.
Proof.
  rewrite (leap_count_snoc (start + 1) 399).
  change (leap_count start 400)
    with ((if leap_bool start then 1 else 0)
          + leap_count (start + 1) 399)%nat.
  replace (start + 1 + Z.of_nat 399) with (start + 400) by lia.
  rewrite leap_bool_period. lia.
Qed.

Lemma leap_count_cycle (start : Z) : leap_count start 400 = 97%nat.
Proof.
  induction start as [ | x IH | x IH] using Z.peano_ind.
  - vm_compute. reflexivity.
  - unfold Z.succ. rewrite leap_count_shift. exact IH.
  - rewrite <- leap_count_shift.
    replace (Z.pred x + 1) with x by lia. exact IH.
Qed.

(** X6: every run of 400 consecutive years, wherever it starts, contains
    exactly 97 years for which [is_leap] returns [True]. *)
Theorem is_leap_97_per_400 :
  forall (start : Z) (w : world),
    leap_years_from start 400 w = 97%nat.
Proof.
  intros start w.
  rewrite leap_years_from_count. apply leap_count_cycle.
Qed.

(** ** The greeting *)


Lemma greetable_split (enc : encoding) (name : pyval) :
  greetable enc name = true
  <-> exceeds_str_digits name = false /\ enc (hello name) = true.
Proof.
  unfold greetable. rewrite andb_true_iff, negb_true_iff. reflexivity.
Qed.

Lemma greet_greetable (enc : encoding) (name : pyval) (w : world) :
  greetable enc name = true ->
  greet enc name w
  = (Ok PyNone, mkWorld (stdout w ++ [greeting name]) (global_i w)).
Proof.
  intros H. apply greetable_split in H. destruct H as [Hd He].
  rewrite greet_cases, Hd, He. reflexivity.
Qed.

Lemma greet_not_greetable (enc : encoding) (name : pyval) (w : world) :
  greetable enc name = false ->
  raises (result (greet enc name) w) = true /\ after (greet enc name) w = w.
Proof.
  unfold greetable, result, after. rewrite greet_cases.
  destruct (exceeds_str_digits name); simpl; [ auto | ].
  intros ->. auto.
Qed.

Lemma limit_pos : 0 < 10 ^ int_max_str_digits.
Proof. apply Z.pow_pos_nonneg; unfold int_max_str_digits; lia. Qed.

Lemma limit_above_ten : 10 <= 10 ^ int_max_str_digits.
Proof.
  change 10 with (10 ^ 1) at 1.
  apply Z.pow_le_mono_r; unfold int_max_str_digits; lia.
Qed.

(** The limit is only ever compared, never computed. *)
Ltac abstract_limit :=
  pose proof limit_pos; pose proof limit_above_ten;
  unfold first_too_long in *;
  generalize dependent (10 ^ int_max_str_digits); intros.

Lemma first_too_long_exceeds :
  exceeds_str_digits (PyInt first_too_long) = true.
Proof.
  unfold exceeds_str_digits. apply Z.leb_le. abstract_limit. lia.
Qed.


Lemma one_digit_within_limit (z : Z) :
  Z.abs z < 10 -> exceeds_str_digits (PyInt z) = false.
Proof.
  intros Hz. unfold exceeds_str_digits. apply Z.leb_gt.
  abstract_limit. lia.
Qed.


(** X7: on a stream of encoding [enc], greeting one after the other a list
    of names that are each within the digit limit of [str] and encodable
    never raises, leaves the global [i] alone, keeps what was already
    printed, and appends one line per name, in call order.  When a name
    that is not follows them, the call for it raises, the lines of the
    names before it stay printed, and nothing is printed for it or for
    the names after it. *)
Theorem greet_each_appends_in_order :
  forall (enc : encoding) (names : list pyval) (w : world),
    forallb (greetable enc) names = true ->
    greet_each enc names w
    = (Ok PyNone, mkWorld (stdout w ++ map greeting names) (global_i w)) /\
    forall (bad : pyval) (rest : list pyval),
      greetable enc bad = false ->
      raises (result (greet_each enc (names ++ bad :: rest)) w) = true /\
      after (greet_each enc (names ++ bad :: rest)) w
      = mkWorld (stdout w ++ map greeting names) (global_i w).
Proof.
  intros enc names. induction names as [ | name names IH]; intros w Hall.
  - split.
    + simpl. rewrite app_nil_r. destruct w; reflexivity.
    + intros bad rest Hbad.
      destruct (greet_not_greetable enc bad w Hbad) as [Hr Ha].
      unfold result, after in *. simpl. unfold bind.
      destruct (greet enc bad w) as [[v | e] w'] eqn:E; simpl in *.
      * discriminate.
      * subst w'. rewrite app_nil_r. destruct w; split; reflexivity.
  - simpl in Hall. apply andb_true_iff in Hall. destruct Hall as [Hn Hall].
    pose proof (greet_greetable enc name w Hn) as G.
    specialize (IH (mkWorld (stdout w ++ [greeting name]) (global_i w)) Hall).
    destruct IH as [IHok IHbad]. simpl in IHok, IHbad.
    rewrite <- app_assoc in IHok, IHbad. simpl in IHok, IHbad.
    split.
    + simpl. rewrite (bind_ok _ _ w _ PyNone G). exact IHok.
    + intros bad rest Hbad. unfold result, after. simpl.
      rewrite (bind_ok _ _ w _ PyNone G).
      apply (IHbad bad rest Hbad).
Qed.

Lemma greet_each_appends_in_order_witness :
  forallb (greetable utf_8) [PyStr "ann"; PyInt 7] = true /\
  greet_each utf_8 [PyStr "ann"; PyInt 7] initial_world
  = (Ok PyNone,
     mkWorld [greeting (PyStr "ann"); greeting (PyInt 7)] None) /\
  raises (result (greet_each utf_8
                    [PyStr "ann"; PyInt 7; PyInt first_too_long; PyStr "bob"])
                 initial_world) = true /\
  after (greet_each utf_8
           [PyStr "ann"; PyInt 7; PyInt first_too_long; PyStr "bob"])
        initial_world
  = mkWorld [greeting (PyStr "ann"); greeting (PyInt 7)] None.
Proof.
  assert (H : forallb (greetable utf_8) [PyStr "ann"; PyInt 7] = true).
  { cbv [forallb greetable].
    rewrite (one_digit_within_limit 7) by reflexivity. reflexivity. }
  assert (B : greetable utf_8 (PyInt first_too_long) = false)
    by (unfold greetable; rewrite first_too_long_exceeds; reflexivity).
  destruct (greet_each_appends_in_order utf_8 [PyStr "ann"; PyInt 7]
              initial_world H) as [Hok Hbad].
  split; [ exact H | ]. split; [ exact Hok | ].
  exact (Hbad (PyInt first_too_long) [PyStr "bob"] B).
Defined.



(** X9: run before [greet] on the same value, [validate] acts as a guard.
    On a falsy value its [ValueError("Username required")] propagates and
    nothing is printed.  On a truthy value that [greet] can print (within
    the digit limit, encodable on the stream) the greeting line is printed
    and [None] returned.  On a truthy value that [greet] cannot print the
    sequence still raises, but not the "Username required" error, and
    nothing is printed. *)
Theorem validate_guards_greet :
  forall (enc : encoding) (u : pyval) (w : world),
    (truthy u = false ->
       (validate u ;;; greet enc u) w
       = (Raise (ValueError "Username required"), w)) /\
    (truthy u = true -> greetable enc u = true ->
       (validate u ;;; greet enc u) w
       = (Ok PyNone, mkWorld (stdout w ++ [greeting u]) (global_i w))) /\
    (truthy u = true -> greetable enc u = false ->
       raises (result (validate u ;;; greet enc u) w) = true /\
       result (validate u ;;; greet enc u) w
       <> Raise (ValueError "Username required") /\
       after (validate u ;;; greet enc u) w = w).
Proof.
  intros enc u w. unfold bind at 1 2 3 4 5, validate.
  split; [ | split ].
  - intros H. rewrite H. reflexivity.
  - intros H G. rewrite H. simpl. apply greet_greetable, G.
  - intros H G. rewrite H. simpl.
    destruct (greet_not_greetable enc u w G) as [Hr Ha].
    repeat split; try assumption.
    apply greet_not_username_required.
Qed.

Lemma validate_guards_greet_witness :
  (validate (PyInt 0) ;;; greet utf_8 (PyInt 0)) initial_world
  = (Raise (ValueError "Username required"), initial_world) /\
  (validate (PyStr "ann") ;;; greet utf_8 (PyStr "ann")) initial_world
  = (Ok PyNone, mkWorld [greeting (PyStr "ann")] None) /\
  raises (result (validate (PyInt first_too_long)
                  ;;; greet utf_8 (PyInt first_too_long)) initial_world)
  = true.
Proof.
  split; [ | split ].
  - apply (proj1 (validate_guards_greet utf_8 (PyInt 0) initial_world)).
    reflexivity.
  - apply (proj1 (proj2 (validate_guards_greet utf_8 (PyStr "ann")
                           initial_world))); reflexivity.
  - apply (proj2 (proj2 (validate_guards_greet utf_8 (PyInt first_too_long)
                           initial_world))).
    + unfold truthy. apply negb_true_iff, Z.eqb_neq.
      abstract_limit. lia.
    + unfold greetable. rewrite first_too_long_exceeds. reflexivity.
Defined.


(** ** The import-time loop *)

(** X10: the counting loop never raises and prints nothing; a loop of
    [n > 0] turns leaves the global [i] bound to [n - 1] whatever it was
    before, and a loop of no turns leaves it as it was.  After the
    module's own loop [i] is 999999. *)
Theorem counting_loop_binds_last_index :
  forall (n : N) (w : world),
    for_i_in_range n pass w
    = (Ok PyNone,
       if (n =? 0)%N then w
       else mkWorld (stdout w) (Some (Z.of_N n - 1))) /\
    module_loop w = (Ok PyNone, mkWorld (stdout w) (Some 999999)).
Proof.
  intros n w. split.
  - unfold for_i_in_range. rewrite for_pass_iter. reflexivity.
  - apply module_loop_eval.
Qed.
